(** * FarmTech ESP32 irrigation controller: the sketch [main.cpp] in Rocq

    The sketch reads two nutrient buttons, a light sensor used as a pH
    proxy and a DHT22 humidity/temperature sensor, decides whether the
    irrigation pump must run, and drives the pump relay.

    The C++ [float] values are IEEE-754 binary32 numbers; they are
    modelled by [spec_float], the specification of floating-point numbers of
    the standard library, with its comparisons [SFltb] and [SFleb] (false
    as soon as one side is NaN, as in C++). *)

From Stdlib Require Import ZArith QArith Bool List String Ascii Lia.
From Stdlib Require Import Floats.SpecFloat Numbers.DecimalString.
Import ListNotations.

Open Scope string_scope.
Open Scope Z_scope.

(** ** C++ [float] *)

Module Float32.

Definition float : Type := spec_float.

Definition prec : Z := 24.
Definition emax : Z := 128.

(** The binary32 number nearest to [m * 2^e]. *)
Definition of_dyadic (m e : Z) : float := binary_normalize prec emax m e false.

(** Conversion of a C++ [long] to [float]. *)
Definition of_long (z : Z) : float := of_dyadic z 0.

(** Representable in binary32. *)
Definition valid (x : float) : bool := valid_binary prec emax x.

Definition isnan (x : float) : bool :=
  match x with S754_nan => true | _ => false end.

(** The C++ comparisons. *)
Definition lt (x y : float) : bool := SFltb x y.
Definition le (x y : float) : bool := SFleb x y.
Definition gt (x y : float) : bool := lt y x.
Definition ge (x y : float) : bool := le y x.

(** The rational number [m * 2^e]. *)
Definition dyadic_Q (m : positive) (e : Z) : Q :=
  match e with
  | Zneg p => Qmake (Zpos m) (2 ^ p)
  | _ => inject_Z (Zpos m * 2 ^ e)
  end.

(** The rational number a finite float stands for. *)
Definition to_Q (x : float) : option Q :=
  match x with
  | S754_zero _ => Some 0%Q
  | S754_finite s m e =>
      Some (Qred (if s then Qopp (dyadic_Q m e) else dyadic_Q m e))
  | _ => None
  end.

End Float32.

Import Float32.

Declare Scope float_scope.
Delimit Scope float_scope with flt.
Infix "<" := lt : float_scope.
Infix "<=" := le : float_scope.
Infix ">" := gt : float_scope.
Infix ">=" := ge : float_scope.

(** ** Pin map and thresholds (main.cpp, lines 5-21) *)

Definition PINO_BOTAO_FOSFORO : Z := 23.
Definition PINO_BOTAO_POTASSIO : Z := 21.
Definition PINO_LDR_PH : Z := 35.
Definition PINO_DHT_UMIDADE : Z := 19.
Definition PINO_RELE_BOMBA : Z := 22.

(** The literals 20.0, 30.0, 15.0, 5.5, 6.5, 4.5 and 7.5 are binary32
    numbers: no rounding takes place. *)
Definition UMIDADE_MINIMA_PARA_IRRIGAR : float := Eval cbv in of_dyadic 20 0.
Definition UMIDADE_ALTA_PARAR_IRRIGACAO : float := Eval cbv in of_dyadic 30 0.
Definition UMIDADE_CRITICA_BAIXA : float := Eval cbv in of_dyadic 15 0.
Definition PH_IDEAL_MINIMO : float := Eval cbv in of_dyadic 11 (-1).
Definition PH_IDEAL_MAXIMO : float := Eval cbv in of_dyadic 13 (-1).
Definition PH_CRITICO_MINIMO : float := Eval cbv in of_dyadic 9 (-1).
Definition PH_CRITICO_MAXIMO : float := Eval cbv in of_dyadic 15 (-1).

(** ** The Arduino core functions the sketch calls *)

Module Arduino.

Inductive Nivel : Type := LOW | HIGH.

Definition Nivel_eqb (a b : Nivel) : bool :=
  match a, b with
  | LOW, LOW | HIGH, HIGH => true
  | _, _ => false
  end.

(** [long] is a 32-bit two's complement integer on the ESP32. *)
Definition long_wrap (z : Z) : Z := (z + 2 ^ 31) mod 2 ^ 32 - 2 ^ 31.

(** [long map(long x, long in_min, long in_max, long out_min, long out_max)]
    of the Arduino core (WMath.cpp): the arithmetic is on [long], the
    division truncates, and the result is a [long].

<<
    const long run = in_max - in_min;
    if (run == 0) return -1;
    const long rise = out_max - out_min;
    const long delta = x - in_min;
    return (delta * rise) / run + out_min;
>> *)
Definition map (x in_min in_max out_min out_max : Z) : Z :=
  let run := long_wrap (in_max - in_min) in
  if run =? 0 then -1
  else
    let rise := long_wrap (out_max - out_min) in
    let delta := long_wrap (x - in_min) in
    long_wrap (long_wrap (delta * rise) ÷ run + out_min).

(** [String(float value, unsigned int decimalPlaces = 2)]: the decimal
    text of [value], rounded at [decimalPlaces] digits after the point. *)
Definition digito (d : Z) : string :=
  String (ascii_of_N (Z.to_N (48 + d))) EmptyString.

Fixpoint digitos (n : nat) (z : Z) : string :=
  match n with
  | O => ""
  | S k => digitos k (z / 10) ++ digito (z mod 10)
  end.

Definition decimal (negativo : bool) (escalado : Z) (decimalPlaces : nat) : string :=
  let p := 10 ^ Z.of_nat decimalPlaces in
  (if negativo then "-" else "")
    ++ NilZero.string_of_uint (N.to_uint (Z.to_N (escalado / p)))
    ++ match decimalPlaces with
       | O => ""
       | _ => "." ++ digitos decimalPlaces (escalado mod p)
       end.

Definition String_float (value : float) (decimalPlaces : nat) : string :=
  match value with
  | S754_nan => "nan"
  | S754_infinity _ => "inf"
  | S754_zero _ => decimal false 0 decimalPlaces
  | S754_finite s m e =>
      let p := 10 ^ Z.of_nat decimalPlaces in
      let escalado :=
        match e with
        | Zneg k => (2 * Zpos m * p + 2 ^ Zpos k) / 2 ^ (Zpos k + 1)
        | _ => Zpos m * 2 ^ e * p
        end in
      decimal s escalado decimalPlaces
  end.

(** What the sketch sends to the serial monitor. *)
Inductive Saida : Type :=
| print (s : string)
| print_float (x : float) (casas : nat)
| println (s : string).

(** The board as the sketch acts on it: the level driven on the relay
    pin, the serial output so far, and the milliseconds spent in
    [delay]. *)
Record Placa : Type := mkPlaca {
  rele : Nivel;
  serial : list Saida;
  relogio : Z
}.

Definition acao : Type := Placa -> Placa.

Definition seq (f g : acao) : acao := fun p => g (f p).

Definition digitalWrite (pino : Z) (v : Nivel) : acao := fun p =>
  if pino =? PINO_RELE_BOMBA
  then mkPlaca v (serial p) (relogio p)
  else p.

Definition Serial_emit (s : Saida) : acao := fun p =>
  mkPlaca (rele p) (serial p ++ [s])%list (relogio p).

Definition Serial_print (s : string) : acao := Serial_emit (print s).
Definition Serial_print_float (x : float) (casas : nat) : acao :=
  Serial_emit (print_float x casas).
Definition Serial_println (s : string) : acao := Serial_emit (println s).

Definition delay (ms : Z) : acao := fun p =>
  mkPlaca (rele p) (serial p) (relogio p + ms).

(** What the sensors answer during one cycle. *)
Record Ambiente : Type := mkAmbiente {
  digitalRead : Z -> Nivel;
  analogRead : Z -> Z;
  dht_readHumidity : float;
  dht_readTemperature : float
}.

End Arduino.

Import Arduino.

Notation "f ;; g" := (seq f g) (at level 61, left associativity).

(** ** The sketch *)

(** The readings of one cycle (main.cpp, lines 40-45). *)
Record Leituras : Type := mkLeituras {
  fosforoPresente : bool;
  potassioPresente : bool;
  phEstimado : float;
  umidade : float;
  temperatura : float
}.

(** Line 52: the readings the cascade may be run on. *)
Definition leitura_valida (l : Leituras) : bool :=
  negb (isnan (umidade l) || isnan (temperatura l)).

(** Line 43: [float phEstimado = map(valorLDR, 0, 4095, 0.0, 14.0);].  The
    bounds [0.0] and [14.0] are converted to the [long] parameters of [map],
    and the [long] it returns is converted to [float]. *)
Definition estimar_ph (valorLDR : Z) : float :=
  of_long (Arduino.map valorLDR 0 4095 0 14).

Definition lerSensores (a : Ambiente) : Leituras :=
  let fosforoPresente := Nivel_eqb (digitalRead a PINO_BOTAO_FOSFORO) LOW in
  let potassioPresente := Nivel_eqb (digitalRead a PINO_BOTAO_POTASSIO) LOW in
  let valorLDR := analogRead a PINO_LDR_PH in
  let phEstimado := estimar_ph valorLDR in
  let umidade := dht_readHumidity a in
  let temperatura := dht_readTemperature a in
  mkLeituras fosforoPresente potassioPresente phEstimado umidade temperatura.

(** The pump decision: [ligarBomba] and [motivoDecisao]. *)
Record Decisao : Type := mkDecisao {
  ligarBomba : bool;
  motivoDecisao : string
}.

(** Lines 48-49 and 62-96: the decision cascade. *)
Definition logicaDecisao (l : Leituras) : Decisao :=
  let inicial := mkDecisao false "Condicoes normais, bomba desligada." in
  if (umidade l < UMIDADE_CRITICA_BAIXA)%flt then
    mkDecisao true
      ("EMERGENCIA: Umidade critica baixa (<"
         ++ String_float UMIDADE_CRITICA_BAIXA 2 ++ "%).")
  else if (phEstimado l < PH_CRITICO_MINIMO)%flt
          || (phEstimado l > PH_CRITICO_MAXIMO)%flt then
    mkDecisao false
      ("Bomba DESLIGADA: pH critico (fora de "
         ++ String_float PH_CRITICO_MINIMO 2 ++ "-"
         ++ String_float PH_CRITICO_MAXIMO 2 ++ ").")
  else if (umidade l < UMIDADE_MINIMA_PARA_IRRIGAR)%flt then
    if (phEstimado l >= PH_IDEAL_MINIMO)%flt
       && (phEstimado l <= PH_IDEAL_MAXIMO)%flt then
      if fosforoPresente l && potassioPresente l then
        mkDecisao true
          "Bomba LIGADA: Umidade baixa, pH ideal, P e K presentes (irrig. normal)."
      else if fosforoPresente l || potassioPresente l then
        mkDecisao true
          "Bomba LIGADA: Umidade baixa, pH ideal, P ou K presente (irrig. reduzida)."
      else
        mkDecisao true
          "Bomba LIGADA: Umidade baixa, pH ideal, P e K ausentes (irrig. minima)."
    else
      mkDecisao false
        ("Bomba DESLIGADA: Umidade baixa, mas pH fora da faixa ideal (entre "
           ++ String_float PH_IDEAL_MINIMO 2 ++ "-"
           ++ String_float PH_IDEAL_MAXIMO 2 ++ ").")
  else if (umidade l > UMIDADE_ALTA_PARAR_IRRIGACAO)%flt then
    mkDecisao false
      ("Bomba DESLIGADA: Umidade alta (>"
         ++ String_float UMIDADE_ALTA_PARAR_IRRIGACAO 2 ++ "%).")
  else
    mkDecisao false "Condicoes de umidade OK, bomba permanece desligada.".

Definition sim_nao (b : bool) : string := if b then "SIM" else "NAO".

(** Lines 23-36.  [pinMode], [Serial.begin] and [dht.begin] only configure
    the peripherals. *)
Definition setup : acao :=
  Serial_println "--- Sistema de Irrigacao Inteligente - Aula 3: LOGICA ATIVA ---" ;;
  digitalWrite PINO_RELE_BOMBA LOW ;;
  Serial_println "Sensores configurados. Iniciando logica de irrigacao..." ;;
  delay 2000.

(** Lines 101-110: the status report. *)
Definition relatorio (l : Leituras) (d : Decisao) : acao :=
  Serial_println "-------------------------------------------" ;;
  Serial_print "Umidade: " ;; Serial_print_float (umidade l) 1 ;; Serial_print "%" ;;
  Serial_print " | pH Estimado: " ;; Serial_print_float (phEstimado l) 1 ;;
  Serial_print " | P: " ;; Serial_print (sim_nao (fosforoPresente l)) ;;
  Serial_print " | K: " ;; Serial_print (sim_nao (potassioPresente l)) ;;
  Serial_print " | Temp: " ;; Serial_print_float (temperatura l) 1 ;;
  Serial_println " *C" ;;
  Serial_print "DECISAO: " ;; Serial_println (motivoDecisao d) ;;
  Serial_print "ESTADO DA BOMBA: " ;;
  Serial_println (if ligarBomba d then "LIGADA" else "DESLIGADA") ;;
  Serial_println ("-------------------------------------------" ++ String "010" "").

(** Lines 38-113: one pass of [loop()]. *)
Definition loop (a : Ambiente) : acao :=
  let l := lerSensores a in
  if isnan (umidade l) || isnan (temperatura l) then
    Serial_println "!! ATENCAO: Falha ao ler sensor DHT. Logica de irrigacao pausada. !!" ;;
    digitalWrite PINO_RELE_BOMBA LOW ;;
    delay 2000
  else
    let d := logicaDecisao l in
    digitalWrite PINO_RELE_BOMBA (if ligarBomba d then HIGH else LOW) ;;
    relatorio l d ;;
    delay 3000.

(** The Arduino runtime calls [loop()] again and again; [executar] runs it
    once per element of the list of sensor answers. *)
Fixpoint executar (ciclos : list Ambiente) (p : Placa) : Placa :=
  match ciclos with
  | [] => p
  | a :: resto => executar resto (loop a p)
  end.

(** The serial output and the delay one pass adds to those of the board. *)
Definition placa_inicial : Placa := mkPlaca LOW [] 0.

Definition emitido (a : Ambiente) : list Saida := serial (loop a placa_inicial).
Definition pausa (a : Ambiente) : Z := relogio (loop a placa_inicial).

Definition aviso_falha : Saida :=
  println "!! ATENCAO: Falha ao ler sensor DHT. Logica de irrigacao pausada. !!".

(** Whether a pass reports a decision: the line [DECISAO: ...]. *)
Definition relata_decisao (s : list Saida) : bool :=
  existsb (fun x => match x with
                    | print t => String.eqb t "DECISAO: "
                    | _ => false
                    end) s.

(** Sensor answers for one cycle: the levels of the two buttons, the raw
    value of the light sensor, and the humidity and temperature of the
    DHT22. *)
Definition ambiente (botaoP botaoK : Nivel) (valorLDR : Z) (h t : float) : Ambiente :=
  mkAmbiente
    (fun pino => if pino =? PINO_BOTAO_FOSFORO then botaoP else botaoK)
    (fun _ => valorLDR) h t.

(** The mapping as the specification words it, the linear rescaling
    [raw * 14.0 / 4095.0] of the raw reading to the pH scale, in exact
    arithmetic; [estimar_ph] above is what line 43 computes. *)
Definition ph_linear (raw : Z) : Q := (inject_Z raw * 14 / 4095)%Q.

(** ** Runs of the sketch

    A pass is valid when the DHT22 answered with numbers (line 52). *)
Definition passe_valido (a : Ambiente) : bool := leitura_valida (lerSensores a).

(** The valid and the failed passes of a run. *)
Definition validos (ciclos : list Ambiente) : nat :=
  List.length (filter passe_valido ciclos).

Definition falhas (ciclos : list Ambiente) : nat :=
  List.length (filter (fun a => negb (passe_valido a)) ciclos).

(** The decision lines [DECISAO: ...] of a serial output. *)
Definition e_decisao (x : Saida) : bool :=
  match x with
  | print t => String.eqb t "DECISAO: "
  | _ => false
  end.

Definition conta_decisoes (s : list Saida) : nat :=
  List.length (filter e_decisao s).

(** Whether a reason announces a running pump: it starts with
    [EMERGENCIA] or with [Bomba LIGADA]. *)
Definition motivo_indica_ligada (m : string) : bool :=
  prefix "EMERGENCIA" m || prefix "Bomba LIGADA" m.

(** ** The order of floats

    A float that is not NaN is ranked by three integers, its class (the
    infinities, the negative and positive finite numbers, zero), its
    exponent and its mantissa, ordered lexicographically; [SFcompare] is
    the comparison of the ranks. *)

Definition nan_flag (x : float) : Z := if isnan x then 1 else 0.

Definition classe (x : float) : Z :=
  match x with
  | S754_nan | S754_zero _ => 0
  | S754_infinity s => if s then -2 else 2
  | S754_finite s _ _ => if s then -1 else 1
  end.

Definition expoente (x : float) : Z :=
  match x with
  | S754_finite s _ e => if s then - e else e
  | _ => 0
  end.

Definition mantissa (x : float) : Z :=
  match x with
  | S754_finite s m _ => if s then Zneg m else Zpos m
  | _ => 0
  end.

Definition rank (x : float) : Z * Z * Z := (classe x, expoente x, mantissa x).

Definition lex3 (a b : Z * Z * Z) : comparison :=
  let '(a1, a2, a3) := a in
  let '(b1, b2, b3) := b in
  match a1 ?= b1 with
  | Eq => match a2 ?= b2 with Eq => a3 ?= b3 | c => c end
  | c => c
  end.

Definition lex_lt (a b : Z * Z * Z) : Prop :=
  let '(a1, a2, a3) := a in
  let '(b1, b2, b3) := b in
  a1 < b1 \/ (a1 = b1 /\ (a2 < b2 \/ (a2 = b2 /\ a3 < b3))).

Definition lex_le (a b : Z * Z * Z) : Prop :=
  let '(a1, a2, a3) := a in
  let '(b1, b2, b3) := b in
  a1 < b1 \/ (a1 = b1 /\ (a2 < b2 \/ (a2 = b2 /\ a3 <= b3))).

(** The value of a binary32 number in units of [2^-149], the least
    positive binary32 number. *)
Definition escala (x : float) : Z :=
  match x with
  | S754_finite s m e =>
      let v := Zpos m * 2 ^ (e + 149) in
      if s then - v else v
  | _ => 0
  end.

Definition finito (x : float) : bool :=
  match x with
  | S754_zero _ | S754_finite _ _ _ => true
  | _ => false
  end.

(** ** Facts about the order of floats *)

Section FloatOrder.

Lemma SFcompare_rank (x y : float) :
  isnan x = false -> isnan y = false ->
  SFcompare x y = Some (lex3 (rank x) (rank y)).
Proof.
  destruct x as [[]|[]| |[] mx ex], y as [[]|[]| |[] my ey];
    simpl; try reflexivity; try discriminate; intros _ _.
  rewrite Z.compare_opp, (Z.compare_antisym ex ey).
  destruct (ex ?= ey); reflexivity.
Qed.

Lemma lex3_Lt (a b : Z * Z * Z) : lex3 a b = Lt <-> lex_lt a b.
Proof.
  destruct a as [[a1 a2] a3], b as [[b1 b2] b3]; simpl.
  destruct (Z.compare_spec a1 b1), (Z.compare_spec a2 b2), (Z.compare_spec a3 b3);
    split; intros; try discriminate; try reflexivity; lia.
Qed.

Lemma lex3_not_Gt (a b : Z * Z * Z) : lex3 a b <> Gt <-> lex_le a b.
Proof.
  destruct a as [[a1 a2] a3], b as [[b1 b2] b3]; simpl.
  destruct (Z.compare_spec a1 b1), (Z.compare_spec a2 b2), (Z.compare_spec a3 b3);
    split; intros; try discriminate; try congruence; lia.
Qed.

Lemma isnan_compare_l (x y : float) : isnan x = true -> SFcompare x y = None.
Proof. destruct x; try discriminate; reflexivity. Qed.

Lemma isnan_compare_r (x y : float) : isnan y = true -> SFcompare x y = None.
Proof. destruct y; try discriminate; destruct x; reflexivity. Qed.

Lemma isnan_false (x : float) : isnan x = false <-> nan_flag x = 0.
Proof. unfold nan_flag; destruct (isnan x); split; (discriminate || reflexivity). Qed.

Lemma isnan_true (x : float) : isnan x = true <-> nan_flag x = 1.
Proof. unfold nan_flag; destruct (isnan x); split; (discriminate || reflexivity). Qed.

Lemma nan_flag_range (x : float) : nan_flag x = 0 \/ nan_flag x = 1.
Proof. unfold nan_flag; destruct (isnan x); auto. Qed.

Lemma lt_spec (x y : float) :
  lt x y = true <->
  nan_flag x = 0 /\ nan_flag y = 0 /\ lex_lt (rank x) (rank y).
Proof.
  rewrite <- !isnan_false. unfold lt, SFltb. destruct (isnan x) eqn:Hx.
  { rewrite (isnan_compare_l x y Hx).
    split; [discriminate | intros [? _]; discriminate]. }
  destruct (isnan y) eqn:Hy.
  { rewrite (isnan_compare_r x y Hy).
    split; [discriminate | intros [_ [? _]]; discriminate]. }
  rewrite (SFcompare_rank x y Hx Hy), <- lex3_Lt.
  destruct (lex3 (rank x) (rank y));
    (split; [ try discriminate; intros _; repeat split; reflexivity
            | intros [_ [_ H]]; try reflexivity; discriminate ]).
Qed.

Lemma le_spec (x y : float) :
  le x y = true <->
  nan_flag x = 0 /\ nan_flag y = 0 /\ lex_le (rank x) (rank y).
Proof.
  rewrite <- !isnan_false. unfold le, SFleb. destruct (isnan x) eqn:Hx.
  { rewrite (isnan_compare_l x y Hx).
    split; [discriminate | intros [? _]; discriminate]. }
  destruct (isnan y) eqn:Hy.
  { rewrite (isnan_compare_r x y Hy).
    split; [discriminate | intros [_ [? _]]; discriminate]. }
  rewrite (SFcompare_rank x y Hx Hy), <- lex3_not_Gt.
  destruct (lex3 (rank x) (rank y));
    (split; [ try discriminate; intros _; repeat split; discriminate
            | intros [_ [_ H]]; try reflexivity; congruence ]).
Qed.

Lemma lt_false (x y : float) :
  lt x y = false <->
  ~ (nan_flag x = 0 /\ nan_flag y = 0 /\ lex_lt (rank x) (rank y)).
Proof. rewrite <- lt_spec. destruct (lt x y); split; congruence. Qed.

Lemma le_false (x y : float) :
  le x y = false <->
  ~ (nan_flag x = 0 /\ nan_flag y = 0 /\ lex_le (rank x) (rank y)).
Proof. rewrite <- le_spec. destruct (le x y); split; congruence. Qed.

End FloatOrder.

(** Turns the comparisons of the context and of the goal into integer
    arithmetic on the ranks, and leaves it to [lia]. *)
Ltac float_to_rank :=
  unfold gt, ge in *;
  rewrite ?lt_spec, ?le_spec, ?lt_false, ?le_false, ?isnan_false, ?isnan_true in *;
  unfold rank, lex_lt, lex_le in *.

Ltac float_order :=
  float_to_rank;
  repeat match goal with
    | x : float |- _ =>
        lazymatch goal with
        | _ : nan_flag x = 0 \/ nan_flag x = 1 |- _ => fail
        | _ => pose proof (nan_flag_range x)
        end
    end;
  cbn [nan_flag isnan classe expoente mantissa
       UMIDADE_MINIMA_PARA_IRRIGAR UMIDADE_ALTA_PARAR_IRRIGACAO
       UMIDADE_CRITICA_BAIXA PH_IDEAL_MINIMO PH_IDEAL_MAXIMO
       PH_CRITICO_MINIMO PH_CRITICO_MAXIMO] in *;
  lia.

Section FloatOrderLaws.

Variables x y z : float.

Lemma ge_negb_lt :
  isnan x = false -> isnan y = false -> (x >= y)%flt = negb (x < y)%flt.
Proof.
  intros Hx Hy.
  destruct (lt x y) eqn:Hlt, (ge x y) eqn:Hge; try reflexivity; exfalso;
    float_order.
Qed.

Lemma gt_negb_le :
  isnan x = false -> isnan y = false -> (x > y)%flt = negb (x <= y)%flt.
Proof.
  intros Hx Hy.
  destruct (le x y) eqn:Hle, (gt x y) eqn:Hgt; try reflexivity; exfalso;
    float_order.
Qed.

Lemma lt_le_trans : (x < y)%flt = true -> (y <= z)%flt = true -> (x < z)%flt = true.
Proof. intros; float_order. Qed.

Lemma le_lt_trans : (x <= y)%flt = true -> (y < z)%flt = true -> (x < z)%flt = true.
Proof. intros; float_order. Qed.

Lemma lt_not_nan : (x < y)%flt = true -> isnan x = false /\ isnan y = false.
Proof. intros; float_order. Qed.

Lemma le_not_nan : (x <= y)%flt = true -> isnan x = false /\ isnan y = false.
Proof. intros; float_order. Qed.

End FloatOrderLaws.

(** ** Binary32 numbers: the comparisons and the values *)

Section Binary32.

Lemma digits2_pos_size (m : positive) : digits2_pos m = Pos.size m.
Proof. induction m as [m IH|m IH|]; cbn; now rewrite ?IH. Qed.

Lemma bounded_inv (m : positive) (e : Z) :
  bounded prec emax m e = true ->
  -149 <= e <= 104 /\ Zpos m < 2 ^ 24 /\ (-149 < e -> 2 ^ 23 <= Zpos m).
Proof.
  unfold bounded, canonical_mantissa, fexp, emin, prec, emax.
  rewrite andb_true_iff, Z.eqb_eq, Z.leb_le, digits2_pos_size.
  intros [Hcan Hmax].
  pose proof (Pos.size_gt m) as Hgt. pose proof (Pos.size_le m) as Hle.
  apply Pos2Z.pos_lt_pos in Hgt. apply Pos2Z.pos_le_pos in Hle.
  rewrite Pos2Z.inj_pow in Hgt, Hle. rewrite Pos2Z.inj_xO in Hle.
  set (d := Zpos (Pos.size m)) in *.
  assert (Hd : 0 < d) by (unfold d; lia).
  split; [lia|]. split.
  - apply Z.lt_le_trans with (2 ^ d); [exact Hgt|].
    apply Z.pow_le_mono_r; lia.
  - intros He. replace d with 24 in Hle by lia.
    change (2 ^ 24) with (2 * 2 ^ 23) in Hle. lia.
Qed.

Lemma magnitude_order (mx my : positive) (ex ey : Z) :
  bounded prec emax mx ex = true ->
  bounded prec emax my ey = true ->
  (ex < ey \/ (ex = ey /\ Zpos mx < Zpos my))
  <-> Zpos mx * 2 ^ (ex + 149) < Zpos my * 2 ^ (ey + 149).
Proof.
  intros Hx Hy.
  destruct (bounded_inv mx ex Hx) as (Hex & Hmx & Hnx).
  destruct (bounded_inv my ey Hy) as (Hey & Hmy & Hny).
  assert (Hstep : forall (m m' : positive) (e e' : Z),
             -149 <= e -> e < e' -> Zpos m < 2 ^ 24 -> 2 ^ 23 <= Zpos m' ->
             Zpos m * 2 ^ (e + 149) < Zpos m' * 2 ^ (e' + 149)).
  { intros m m' e e' He Hee Hm Hm'.
    replace (e' + 149) with ((e + 149) + (e' - e)) by lia.
    rewrite (Z.pow_add_r 2 (e + 149) (e' - e)) by lia.
    assert (H2 : 2 ^ 1 <= 2 ^ (e' - e)) by (apply Z.pow_le_mono_r; lia).
    assert (HP : 0 < 2 ^ (e + 149)) by (apply Z.pow_pos_nonneg; lia).
    change (2 ^ 1) with 2 in H2.
    set (P := 2 ^ (e + 149)) in *. set (K := 2 ^ (e' - e)) in *.
    assert (HmK : Zpos m < Zpos m' * K).
    { apply Z.lt_le_trans with (2 ^ 23 * 2); [exact Hm|].
      apply Z.mul_le_mono_nonneg; lia. }
    replace (Zpos m' * (P * K)) with (Zpos m' * K * P) by ring.
    apply Z.mul_lt_mono_pos_r; assumption. }
  assert (HP : 0 < 2 ^ (ex + 149)) by (apply Z.pow_pos_nonneg; lia).
  destruct (Z.lt_trichotomy ex ey) as [Hlt | [Heq | Hgt]].
  - split; [intros _|intros _; left; exact Hlt].
    apply Hstep; lia.
  - subst ey. rewrite <- Z.mul_lt_mono_pos_r by exact HP. lia.
  - assert (Zpos my * 2 ^ (ey + 149) < Zpos mx * 2 ^ (ex + 149)).
    { apply Hstep; lia. }
    lia.
Qed.

Lemma dyadic_Q_escala (m : positive) (e : Z) :
  -149 <= e -> (dyadic_Q m e == Zpos m * 2 ^ (e + 149) # 2 ^ 149)%Q.
Proof.
  intros He. unfold Qeq, dyadic_Q.
  destruct e as [|p|p]; cbn [Qnum Qden inject_Z].
  - change (2 ^ (0 + 149)) with (Zpos (2 ^ 149)). ring.
  - rewrite Z.pow_add_r by lia. change (2 ^ 149) with (Zpos (2 ^ 149)). ring.
  - rewrite (Pos2Z.inj_pow 2 p).
    replace (Zpos (2 ^ 149)) with (2 ^ (Z.neg p + 149) * 2 ^ Zpos p).
    + ring.
    + rewrite <- Z.pow_add_r by lia.
      replace (Z.neg p + 149 + Z.pos p) with 149 by lia. reflexivity.
Qed.

Lemma to_Q_escala (x : float) (q : Q) :
  valid x = true -> to_Q x = Some q -> (q == escala x # 2 ^ 149)%Q.
Proof.
  destruct x as [s|s| |s m e]; cbn [to_Q escala valid valid_binary]; try discriminate.
  - intros _ [= <-]. reflexivity.
  - intros Hb [= <-]. destruct (bounded_inv m e Hb) as (He & _ & _).
    rewrite Qred_correct.
    destruct s; rewrite (dyadic_Q_escala m e) by lia; reflexivity.
Qed.

Lemma to_Q_finito (x : float) : finito x = true <-> exists q, to_Q x = Some q.
Proof.
  destruct x; cbn; split; try discriminate; eauto; intros [q Hq]; discriminate.
Qed.

Lemma escala_order_lt (x y : float) :
  valid x = true -> valid y = true -> finito x = true -> finito y = true ->
  (lex_lt (rank x) (rank y) <-> escala x < escala y).
Proof.
  destruct x as [sx|sx| |sx mx ex], y as [sy|sy| |sy my ey];
    cbn [finito valid valid_binary]; try discriminate; intros Hx Hy _ _;
    unfold lex_lt, rank; cbn [classe expoente mantissa escala].
  - lia.
  - destruct (bounded_inv my ey Hy) as (He & _ & _).
    assert (0 < 2 ^ (ey + 149)) by (apply Z.pow_pos_nonneg; lia).
    destruct sy; nia.
  - destruct (bounded_inv mx ex Hx) as (He & _ & _).
    assert (0 < 2 ^ (ex + 149)) by (apply Z.pow_pos_nonneg; lia).
    destruct sx; nia.
  - destruct (bounded_inv mx ex Hx) as (Hex & _ & _).
    destruct (bounded_inv my ey Hy) as (Hey & _ & _).
    assert (0 < 2 ^ (ex + 149)) by (apply Z.pow_pos_nonneg; lia).
    assert (0 < 2 ^ (ey + 149)) by (apply Z.pow_pos_nonneg; lia).
    pose proof (magnitude_order mx my ex ey Hx Hy) as Hxy.
    pose proof (magnitude_order my mx ey ex Hy Hx) as Hyx.
    destruct sx, sy; try nia; lia.
Qed.

Lemma finito_nan_flag (x : float) : finito x = true -> nan_flag x = 0.
Proof. destruct x; cbn; (discriminate || reflexivity). Qed.

Lemma escala_order_le (x y : float) :
  valid x = true -> valid y = true -> finito x = true -> finito y = true ->
  (lex_le (rank x) (rank y) <-> escala x <= escala y).
Proof.
  intros Vx Vy Fx Fy.
  pose proof (escala_order_lt y x Vy Vx Fy Fx) as Hyx.
  unfold lex_le, lex_lt, rank in *. lia.
Qed.

Lemma Qlt_escala (a b : Z) (d : positive) : (a # d < b # d)%Q <-> a < b.
Proof. unfold Qlt; cbn [Qnum Qden]. symmetry. apply Z.mul_lt_mono_pos_r. lia. Qed.

Lemma Qle_escala (a b : Z) (d : positive) : (a # d <= b # d)%Q <-> a <= b.
Proof. unfold Qle; cbn [Qnum Qden]. symmetry. apply Z.mul_le_mono_pos_r. lia. Qed.

(** On binary32 numbers the C++ comparisons are the comparisons of the
    values. *)
Lemma lt_Qlt (x y : float) (qx qy : Q) :
  valid x = true -> valid y = true ->
  to_Q x = Some qx -> to_Q y = Some qy ->
  ((x < y)%flt = true <-> (qx < qy)%Q).
Proof.
  intros Vx Vy Hx Hy.
  assert (Fx : finito x = true) by (apply to_Q_finito; eauto).
  assert (Fy : finito y = true) by (apply to_Q_finito; eauto).
  rewrite (to_Q_escala x qx Vx Hx), (to_Q_escala y qy Vy Hy), Qlt_escala.
  rewrite lt_spec, (escala_order_lt x y Vx Vy Fx Fy).
  pose proof (finito_nan_flag x Fx). pose proof (finito_nan_flag y Fy). tauto.
Qed.

Lemma le_Qle (x y : float) (qx qy : Q) :
  valid x = true -> valid y = true ->
  to_Q x = Some qx -> to_Q y = Some qy ->
  ((x <= y)%flt = true <-> (qx <= qy)%Q).
Proof.
  intros Vx Vy Hx Hy.
  assert (Fx : finito x = true) by (apply to_Q_finito; eauto).
  assert (Fy : finito y = true) by (apply to_Q_finito; eauto).
  rewrite (to_Q_escala x qx Vx Hx), (to_Q_escala y qy Vy Hy), Qle_escala.
  rewrite le_spec, (escala_order_le x y Vx Vy Fx Fy).
  pose proof (finito_nan_flag x Fx). pose proof (finito_nan_flag y Fy). tauto.
Qed.

End Binary32.

(** ** The thresholds *)

Lemma limiares_valor :
  to_Q UMIDADE_CRITICA_BAIXA = Some (15 # 1)%Q
  /\ to_Q UMIDADE_MINIMA_PARA_IRRIGAR = Some (20 # 1)%Q
  /\ to_Q UMIDADE_ALTA_PARAR_IRRIGACAO = Some (30 # 1)%Q
  /\ to_Q PH_CRITICO_MINIMO = Some (9 # 2)%Q
  /\ to_Q PH_IDEAL_MINIMO = Some (11 # 2)%Q
  /\ to_Q PH_IDEAL_MAXIMO = Some (13 # 2)%Q
  /\ to_Q PH_CRITICO_MAXIMO = Some (15 # 2)%Q.
Proof. repeat split; reflexivity. Qed.

Lemma limiares_binary32 :
  forallb valid
    [UMIDADE_CRITICA_BAIXA; UMIDADE_MINIMA_PARA_IRRIGAR;
     UMIDADE_ALTA_PARAR_IRRIGACAO; PH_CRITICO_MINIMO; PH_IDEAL_MINIMO;
     PH_IDEAL_MAXIMO; PH_CRITICO_MAXIMO] = true.
Proof. reflexivity. Qed.

(** ** The decision cascade *)

(** Splits the goal along the conditions of the cascade, and closes each
    branch by computation or by the order of floats. *)
Ltac cascata :=
  unfold logicaDecisao;
  cbn [umidade temperatura phEstimado fosforoPresente potassioPresente];
  repeat match goal with
    | |- context [if (?a || ?b)%bool then _ else _] =>
        destruct a eqn:?; cbn [orb]; cbv iota; try discriminate
    | |- context [if (?a && ?b)%bool then _ else _] =>
        destruct a eqn:?; cbn [andb]; cbv iota; try discriminate
    | |- context [if ?c then _ else _] =>
        destruct c eqn:?; cbv iota; try discriminate
    end;
  cbn [ligarBomba];
  try reflexivity; try (exfalso; float_order).

(** C1. Emergency override: a valid reading whose humidity is below 15.0
    turns the pump on, whatever the estimated pH and the nutrient flags. *)
Theorem C1_emergencia_domina (fos pot : bool) (ph h t : float) :
  leitura_valida (mkLeituras fos pot ph h t) = true ->
  (h < UMIDADE_CRITICA_BAIXA)%flt = true ->
  ligarBomba (logicaDecisao (mkLeituras fos pot ph h t)) = true.
Proof. intros _ Hh. cascata. Qed.

(** C2. Critical pH shutoff: a valid reading whose humidity is at least
    15.0 and whose estimated pH is below 4.5 or above 7.5 leaves the pump
    off, whatever the nutrient flags. *)
Theorem C2_ph_critico_desliga (fos pot : bool) (ph h t : float) :
  leitura_valida (mkLeituras fos pot ph h t) = true ->
  (h >= UMIDADE_CRITICA_BAIXA)%flt = true ->
  (ph < PH_CRITICO_MINIMO)%flt = true \/ (ph > PH_CRITICO_MAXIMO)%flt = true ->
  ligarBomba (logicaDecisao (mkLeituras fos pot ph h t)) = false.
Proof. intros _ Hh Hph. cascata. Qed.

(** C3. A valid reading with humidity in [15.0, 20.0) and estimated pH in
    [5.5, 6.5] turns the pump on in all four combinations of the phosphorus
    and potassium flags. *)
Theorem C3_umidade_baixa_ph_ideal_liga (fos pot : bool) (ph h t : float) :
  leitura_valida (mkLeituras fos pot ph h t) = true ->
  (h >= UMIDADE_CRITICA_BAIXA)%flt = true ->
  (h < UMIDADE_MINIMA_PARA_IRRIGAR)%flt = true ->
  (ph >= PH_IDEAL_MINIMO)%flt = true ->
  (ph <= PH_IDEAL_MAXIMO)%flt = true ->
  ligarBomba (logicaDecisao (mkLeituras fos pot ph h t)) = true.
Proof. intros _ Hh1 Hh2 Hp1 Hp2. cascata. Qed.

(** C4. A valid reading with humidity in [15.0, 20.0) and estimated pH in
    [4.5, 5.5) or in (6.5, 7.5] leaves the pump off, whatever the nutrient
    flags. *)
Theorem C4_umidade_baixa_ph_nao_ideal_desliga (fos pot : bool) (ph h t : float) :
  leitura_valida (mkLeituras fos pot ph h t) = true ->
  (h >= UMIDADE_CRITICA_BAIXA)%flt = true ->
  (h < UMIDADE_MINIMA_PARA_IRRIGAR)%flt = true ->
  ((ph >= PH_CRITICO_MINIMO)%flt = true /\ (ph < PH_IDEAL_MINIMO)%flt = true)
  \/ ((ph > PH_IDEAL_MAXIMO)%flt = true /\ (ph <= PH_CRITICO_MAXIMO)%flt = true) ->
  ligarBomba (logicaDecisao (mkLeituras fos pot ph h t)) = false.
Proof. intros _ Hh1 Hh2 Hp. cascata. Qed.

(** C5. A valid reading with humidity at least 20.0 and estimated pH in
    [4.5, 7.5] leaves the pump off, in the band [20.0, 30.0] as well as
    above 30.0, whatever the nutrient flags. *)
Theorem C5_umidade_suficiente_desliga (fos pot : bool) (ph h t : float) :
  leitura_valida (mkLeituras fos pot ph h t) = true ->
  (h >= UMIDADE_MINIMA_PARA_IRRIGAR)%flt = true ->
  (ph >= PH_CRITICO_MINIMO)%flt = true ->
  (ph <= PH_CRITICO_MAXIMO)%flt = true ->
  ligarBomba (logicaDecisao (mkLeituras fos pot ph h t)) = false.
Proof. intros _ Hh Hp1 Hp2. cascata. Qed.

(** The pump runs exactly when the humidity is critically low, or low with
    the estimated pH in the ideal band; this holds for every reading, NaN
    included. *)
Lemma ligarBomba_logicaDecisao (l : Leituras) :
  ligarBomba (logicaDecisao l)
  = ((umidade l < UMIDADE_CRITICA_BAIXA)%flt
     || ((umidade l < UMIDADE_MINIMA_PARA_IRRIGAR)%flt
         && (phEstimado l >= PH_IDEAL_MINIMO)%flt
         && (phEstimado l <= PH_IDEAL_MAXIMO)%flt))%bool.
Proof.
  destruct l as [fos pot ph h t];
    cbn [umidade temperatura phEstimado fosforoPresente potassioPresente].
  destruct (h < UMIDADE_CRITICA_BAIXA)%flt eqn:H1,
           (h < UMIDADE_MINIMA_PARA_IRRIGAR)%flt eqn:H2,
           (ph >= PH_IDEAL_MINIMO)%flt eqn:H3,
           (ph <= PH_IDEAL_MAXIMO)%flt eqn:H4;
    cbn [orb andb]; cascata.
Qed.

(** X14. The decision in terms of the values of the readings: for binary32
    readings of humidity [qh] and pH [qph] the pump runs exactly when
    [qh < 15], or [qh < 20] and [5.5 <= qph <= 6.5]. *)
Theorem ligarBomba_valores (l : Leituras) (qh qph : Q) :
  valid (umidade l) = true -> valid (phEstimado l) = true ->
  to_Q (umidade l) = Some qh -> to_Q (phEstimado l) = Some qph ->
  (ligarBomba (logicaDecisao l) = true <->
   (qh < 15 \/ (qh < 20 /\ 11 # 2 <= qph /\ qph <= 13 # 2))%Q).
Proof.
  intros Vh Vp Hh Hp.
  rewrite ligarBomba_logicaDecisao, orb_true_iff, !andb_true_iff.
  destruct limiares_valor as (H15 & H20 & _ & _ & H55 & H65 & _).
  unfold ge.
  rewrite (lt_Qlt (umidade l) UMIDADE_CRITICA_BAIXA qh 15 Vh eq_refl Hh H15),
    (lt_Qlt (umidade l) UMIDADE_MINIMA_PARA_IRRIGAR qh 20 Vh eq_refl Hh H20),
    (le_Qle PH_IDEAL_MINIMO (phEstimado l) (11 # 2) qph eq_refl Vp H55 Hp),
    (le_Qle (phEstimado l) PH_IDEAL_MAXIMO qph (13 # 2) Vp eq_refl Hp H65).
  tauto.
Qed.

(** C9. Temperature noninterference: two valid readings that agree on
    humidity, estimated pH and both nutrient flags get the same pump command
    and the same reason, whatever their temperatures. *)
Theorem C9_temperatura_nao_interfere (l1 l2 : Leituras) :
  leitura_valida l1 = true ->
  leitura_valida l2 = true ->
  umidade l1 = umidade l2 ->
  phEstimado l1 = phEstimado l2 ->
  fosforoPresente l1 = fosforoPresente l2 ->
  potassioPresente l1 = potassioPresente l2 ->
  ligarBomba (logicaDecisao l1) = ligarBomba (logicaDecisao l2)
  /\ motivoDecisao (logicaDecisao l1) = motivoDecisao (logicaDecisao l2).
Proof.
  destruct l1 as [fos1 pot1 ph1 h1 t1], l2 as [fos2 pot2 ph2 h2 t2].
  cbn [umidade phEstimado fosforoPresente potassioPresente].
  intros _ _ -> -> -> ->. split; reflexivity.
Qed.

(** ** The estimated pH *)

Lemma long_wrap_small (z : Z) : - 2 ^ 31 <= z < 2 ^ 31 -> long_wrap z = z.
Proof.
  intros Hz. unfold long_wrap.
  rewrite Z.mod_small; lia.
Qed.

(** On the range of the 12-bit converter [map] is the truncated quotient. *)
Lemma map_valorLDR (raw : Z) :
  0 <= raw <= 4095 -> Arduino.map raw 0 4095 0 14 = raw * 14 / 4095.
Proof.
  intros Hraw. unfold Arduino.map.
  change (long_wrap (4095 - 0)) with 4095.
  change (long_wrap (14 - 0)) with 14.
  change (4095 =? 0) with false. cbv iota.
  rewrite Z.sub_0_r, Z.add_0_r.
  rewrite (long_wrap_small raw) by lia.
  rewrite (long_wrap_small (raw * 14)) by lia.
  rewrite Z.quot_div_nonneg by lia.
  apply long_wrap_small.
  assert (0 <= raw * 14 / 4095 <= 14); [|lia].
  split; [apply Z.div_pos; lia|].
  apply Z.div_le_upper_bound; lia.
Qed.

Lemma map_valorLDR_range (raw : Z) :
  0 <= raw <= 4095 -> 0 <= Arduino.map raw 0 4095 0 14 <= 14.
Proof.
  intros Hraw. rewrite (map_valorLDR raw Hraw).
  split; [apply Z.div_pos; lia|].
  apply Z.div_le_upper_bound; lia.
Qed.

(** Enumerates an integer known to lie between 0 and 14. *)
Ltac casos_0_14 k :=
  let H := fresh in
  assert (H : k = 0 \/ k = 1 \/ k = 2 \/ k = 3 \/ k = 4 \/ k = 5 \/ k = 6
              \/ k = 7 \/ k = 8 \/ k = 9 \/ k = 10 \/ k = 11 \/ k = 12
              \/ k = 13 \/ k = 14) by lia;
  repeat (destruct H as [H | H]; [rewrite H |]); [.. | rewrite H].

(** The estimated pH is the whole number [raw * 14 / 4095] rounded down. *)
Lemma estimar_ph_piso (raw : Z) :
  0 <= raw <= 4095 ->
  to_Q (estimar_ph raw) = Some (inject_Z (raw * 14 / 4095)).
Proof.
  intros Hraw. unfold estimar_ph.
  pose proof (map_valorLDR_range raw Hraw) as Hk.
  rewrite (map_valorLDR raw Hraw) in *.
  set (k := raw * 14 / 4095) in *. clearbody k.
  casos_0_14 k; reflexivity.
Qed.

Lemma estimar_ph_range (raw : Z) :
  0 <= raw <= 4095 ->
  (estimar_ph raw >= of_long 0)%flt = true
  /\ (estimar_ph raw <= of_long 14)%flt = true.
Proof.
  intros Hraw. unfold estimar_ph.
  pose proof (map_valorLDR_range raw Hraw) as Hk.
  set (k := Arduino.map raw 0 4095 0 14) in *. clearbody k.
  casos_0_14 k; split; reflexivity.
Qed.

(** The three sample points of the mapping. *)
Lemma estimar_ph_amostras :
  to_Q (estimar_ph 0) = Some (0 # 1)%Q
  /\ to_Q (estimar_ph 4095) = Some (14 # 1)%Q
  /\ to_Q (estimar_ph 2048) = Some (7 # 1)%Q.
Proof. repeat split; reflexivity. Qed.

(** C6. The estimated pH is not the linear rescaling [raw * 14.0 / 4095.0]:
    for the raw reading 1000 the sketch computes exactly 3, while the
    linear rescaling is 2800/819, about 3.42, more than 0.4 above. *)
Theorem C6_estimar_ph_1000 :
  to_Q (estimar_ph 1000) = Some (3 # 1)%Q
  /\ (ph_linear 1000 == 2800 # 819)%Q
  /\ ~ (3 # 1 == ph_linear 1000)%Q
  /\ ((3 # 1) + (2 # 5) < ph_linear 1000)%Q.
Proof.
  split; [reflexivity|]. split; [reflexivity|]. split.
  - unfold ph_linear, Qeq; simpl. lia.
  - unfold ph_linear, Qlt; simpl. lia.
Qed.

(** C8. For every raw reading between 0 and 4095 the estimated pH that
    acquisition builds lies between 0.0 and 14.0. *)
Theorem C8_phEstimado_no_intervalo (a : Ambiente) :
  0 <= analogRead a PINO_LDR_PH <= 4095 ->
  (phEstimado (lerSensores a) >= of_long 0)%flt = true
  /\ (phEstimado (lerSensores a) <= of_long 14)%flt = true.
Proof.
  intros Hraw. unfold lerSensores; cbn [phEstimado].
  apply estimar_ph_range; exact Hraw.
Qed.

(** ** The loop *)

(** A pass of [loop()] that fails to read the DHT sensor. *)
Lemma loop_falha (a : Ambiente) (p : Placa) :
  isnan (dht_readHumidity a) || isnan (dht_readTemperature a) = true ->
  loop a p = mkPlaca LOW (serial p ++ [aviso_falha])%list (relogio p + 2000).
Proof.
  intros Hnan. unfold loop, lerSensores; cbn [umidade temperatura].
  rewrite Hnan. reflexivity.
Qed.

(** A pass of [loop()] on valid readings. *)
Lemma loop_valida (a : Ambiente) (p : Placa) :
  leitura_valida (lerSensores a) = true ->
  loop a p
  = (digitalWrite PINO_RELE_BOMBA
       (if ligarBomba (logicaDecisao (lerSensores a)) then HIGH else LOW) ;;
     relatorio (lerSensores a) (logicaDecisao (lerSensores a)) ;;
     delay 3000) p.
Proof.
  unfold leitura_valida, loop. intros Hval.
  apply negb_true_iff in Hval. rewrite Hval. reflexivity.
Qed.

Lemma loop_valida_rele (a : Ambiente) (p : Placa) :
  leitura_valida (lerSensores a) = true ->
  rele (loop a p)
  = if ligarBomba (logicaDecisao (lerSensores a)) then HIGH else LOW.
Proof. intros Hval. rewrite (loop_valida a p Hval). reflexivity. Qed.

(** What a pass does to the board depends on the board only through the
    serial output and the clock it extends: the relay is written on every
    pass. *)
Lemma loop_frame (a : Ambiente) (p : Placa) :
  loop a p
  = mkPlaca (rele (loop a placa_inicial))
            (serial p ++ emitido a)%list
            (relogio p + pausa a).
Proof.
  unfold emitido, pausa, loop. destruct p as [r s t].
  destruct (isnan (umidade (lerSensores a)) || isnan (temperatura (lerSensores a)));
    cbv [relatorio seq Serial_println Serial_print Serial_print_float
         Serial_emit delay digitalWrite rele serial relogio placa_inicial
         Z.eqb Pos.eqb PINO_RELE_BOMBA];
    rewrite <- ?app_assoc; reflexivity.
Qed.

Lemma loop_rele_independente (a : Ambiente) (p q : Placa) :
  rele (loop a p) = rele (loop a q).
Proof. rewrite (loop_frame a p), (loop_frame a q). reflexivity. Qed.

Lemma executar_serial (ciclos : list Ambiente) (p : Placa) :
  serial (executar ciclos p) = (serial p ++ flat_map emitido ciclos)%list.
Proof.
  revert p. induction ciclos as [|a resto IH]; intros p; cbn [executar flat_map].
  - now rewrite app_nil_r.
  - rewrite IH, (loop_frame a p); cbn [serial]. now rewrite app_assoc.
Qed.

Lemma executar_rele (ciclos : list Ambiente) (p q : Placa) :
  ciclos <> [] -> rele (executar ciclos p) = rele (executar ciclos q).
Proof.
  revert p q. induction ciclos as [|a resto IH]; intros p q Hne; [congruence|].
  cbn [executar]. destruct resto as [|b resto'].
  - cbn [executar]. apply loop_rele_independente.
  - apply IH. discriminate.
Qed.

(** C7. A pass in which the humidity or the temperature reading is NaN
    switches the relay off, reports only the warning (no decision line),
    waits 2000 ms and returns; the passes that follow command the relay and
    report as if the failed pass had not happened. *)
Theorem C7_falha_do_sensor (a : Ambiente) (p : Placa) :
  isnan (dht_readHumidity a) || isnan (dht_readTemperature a) = true ->
  loop a p = mkPlaca LOW (serial p ++ [aviso_falha])%list (relogio p + 2000)
  /\ relata_decisao (emitido a) = false
  /\ forall resto : list Ambiente,
       serial (executar (a :: resto) p)
       = (serial p ++ aviso_falha :: flat_map emitido resto)%list
       /\ (resto <> [] ->
           rele (executar (a :: resto) p) = rele (executar resto p)).
Proof.
  intros Hnan. split; [|split].
  - apply loop_falha; exact Hnan.
  - unfold emitido. rewrite (loop_falha a placa_inicial Hnan). reflexivity.
  - intros resto. split.
    + rewrite executar_serial. cbn [flat_map]. unfold emitido at 1.
      rewrite (loop_falha a placa_inicial Hnan). reflexivity.
    + intros Hne. cbn [executar]. apply executar_rele; exact Hne.
Qed.

Lemma umidade_suficiente (h : float) :
  (h >= UMIDADE_MINIMA_PARA_IRRIGAR)%flt = true ->
  (h < UMIDADE_CRITICA_BAIXA)%flt = false
  /\ (h < UMIDADE_MINIMA_PARA_IRRIGAR)%flt = false.
Proof. intros Hge. split; float_order. Qed.

(** C10. For valid readings with the raw analog value between 0 and 4095
    the pump is commanded on exactly when the humidity is below 15.0, or
    below 20.0 with the estimated pH in [5.5, 6.5]; with humidity at least
    20.0 the decision is off and the relay is driven low. *)
Theorem C10_caracterizacao_completa (a : Ambiente) (p : Placa) :
  leitura_valida (lerSensores a) = true ->
  0 <= analogRead a PINO_LDR_PH <= 4095 ->
  let l := lerSensores a in
  (ligarBomba (logicaDecisao l) = true <->
     (umidade l < UMIDADE_CRITICA_BAIXA)%flt = true
     \/ ((umidade l < UMIDADE_MINIMA_PARA_IRRIGAR)%flt = true
         /\ (phEstimado l >= PH_IDEAL_MINIMO)%flt = true
         /\ (phEstimado l <= PH_IDEAL_MAXIMO)%flt = true))
  /\ (rele (loop a p) = HIGH <-> ligarBomba (logicaDecisao l) = true)
  /\ ((umidade l >= UMIDADE_MINIMA_PARA_IRRIGAR)%flt = true ->
      ligarBomba (logicaDecisao l) = false /\ rele (loop a p) = LOW).
Proof.
  intros Hval _ l. subst l.
  rewrite (loop_valida_rele a p Hval), ligarBomba_logicaDecisao.
  set (l := lerSensores a).
  split; [|split].
  - rewrite orb_true_iff, !andb_true_iff. tauto.
  - destruct (_ || _)%bool; split; (reflexivity || discriminate).
  - intros Hge. destruct (umidade_suficiente (umidade l) Hge) as [H15 H20].
    rewrite H15, H20. split; reflexivity.
Qed.

(** ** Concrete runs *)

Lemma C1_emergencia_domina_witness :
  ligarBomba
    (logicaDecisao (mkLeituras true true (of_long 6) (of_long 10) (of_long 25)))
  = true.
Proof.
  apply (C1_emergencia_domina true true (of_long 6) (of_long 10) (of_long 25));
    reflexivity.
Defined.

Lemma C2_ph_critico_desliga_witness :
  ligarBomba
    (logicaDecisao (mkLeituras true false (of_long 8) (of_long 18) (of_long 25)))
  = false.
Proof.
  apply (C2_ph_critico_desliga true false (of_long 8) (of_long 18) (of_long 25));
    [reflexivity | reflexivity | right; reflexivity].
Defined.

Lemma C3_umidade_baixa_ph_ideal_liga_witness :
  ligarBomba
    (logicaDecisao (mkLeituras false false (of_long 6) (of_long 18) (of_long 25)))
  = true.
Proof.
  apply (C3_umidade_baixa_ph_ideal_liga
           false false (of_long 6) (of_long 18) (of_long 25));
    reflexivity.
Defined.

Lemma C4_umidade_baixa_ph_nao_ideal_desliga_witness :
  ligarBomba
    (logicaDecisao (mkLeituras true true (of_long 5) (of_long 18) (of_long 25)))
  = false.
Proof.
  apply (C4_umidade_baixa_ph_nao_ideal_desliga
           true true (of_long 5) (of_long 18) (of_long 25));
    [reflexivity | reflexivity | reflexivity | left; split; reflexivity].
Defined.

Lemma C5_umidade_suficiente_desliga_witness :
  ligarBomba
    (logicaDecisao (mkLeituras true true (of_long 6) (of_long 25) (of_long 25)))
  = false.
Proof.
  apply (C5_umidade_suficiente_desliga
           true true (of_long 6) (of_long 25) (of_long 25));
    reflexivity.
Defined.

Lemma C7_falha_do_sensor_witness :
  loop (ambiente LOW LOW 2000 S754_nan (of_long 25)) (mkPlaca HIGH [] 0)
  = mkPlaca LOW [aviso_falha] 2000.
Proof.
  apply (C7_falha_do_sensor
           (ambiente LOW LOW 2000 S754_nan (of_long 25)) (mkPlaca HIGH [] 0)).
  reflexivity.
Defined.

Lemma C8_phEstimado_no_intervalo_witness :
  (phEstimado (lerSensores (ambiente LOW HIGH 2048 (of_long 18) (of_long 25)))
   >= of_long 0)%flt = true
  /\ (phEstimado (lerSensores (ambiente LOW HIGH 2048 (of_long 18) (of_long 25)))
      <= of_long 14)%flt = true.
Proof.
  apply (C8_phEstimado_no_intervalo
           (ambiente LOW HIGH 2048 (of_long 18) (of_long 25))).
  cbn. lia.
Defined.

Lemma C9_temperatura_nao_interfere_witness :
  ligarBomba
    (logicaDecisao (mkLeituras true false (of_long 6) (of_long 18) (of_long 10)))
  = ligarBomba
      (logicaDecisao (mkLeituras true false (of_long 6) (of_long 18) (of_long 35)))
  /\ motivoDecisao
       (logicaDecisao (mkLeituras true false (of_long 6) (of_long 18) (of_long 10)))
     = motivoDecisao
         (logicaDecisao (mkLeituras true false (of_long 6) (of_long 18) (of_long 35))).
Proof.
  apply (C9_temperatura_nao_interfere
           (mkLeituras true false (of_long 6) (of_long 18) (of_long 10))
           (mkLeituras true false (of_long 6) (of_long 18) (of_long 35)));
    reflexivity.
Defined.

Lemma C10_caracterizacao_completa_witness :
  rele (loop (ambiente HIGH HIGH 2000 (of_long 18) (of_long 25)) placa_inicial) = HIGH
  <-> ligarBomba
        (logicaDecisao (lerSensores (ambiente HIGH HIGH 2000 (of_long 18) (of_long 25))))
      = true.
Proof.
  apply (C10_caracterizacao_completa
           (ambiente HIGH HIGH 2000 (of_long 18) (of_long 25)) placa_inicial).
  - reflexivity.
  - cbn. lia.
Defined.

(** The five end-to-end scenarios. *)
Example cenario_emergencia :
  logicaDecisao (mkLeituras true true (of_long 6) (of_long 10) (of_long 25))
  = mkDecisao true "EMERGENCIA: Umidade critica baixa (<15.00%).".
Proof. reflexivity. Qed.

Example cenario_umidade_ok :
  logicaDecisao (mkLeituras true true (of_long 6) (of_long 25) (of_long 25))
  = mkDecisao false "Condicoes de umidade OK, bomba permanece desligada.".
Proof. reflexivity. Qed.

Example cenario_irrigacao_minima :
  logicaDecisao (mkLeituras false false (of_long 6) (of_long 18) (of_long 25))
  = mkDecisao true
      "Bomba LIGADA: Umidade baixa, pH ideal, P e K ausentes (irrig. minima).".
Proof. reflexivity. Qed.

Example cenario_ph_critico :
  logicaDecisao (mkLeituras true true (of_long 8) (of_long 18) (of_long 25))
  = mkDecisao false "Bomba DESLIGADA: pH critico (fora de 4.50-7.50).".
Proof. reflexivity. Qed.

Example cenario_falha_sensor :
  executar [ambiente LOW LOW 2000 S754_nan (of_long 25)] (setup placa_inicial)
  = mkPlaca LOW
      [println "--- Sistema de Irrigacao Inteligente - Aula 3: LOGICA ATIVA ---";
       println "Sensores configurados. Iniciando logica de irrigacao...";
       aviso_falha]
      4000.
Proof. reflexivity. Qed.

(** A raw reading of 1700 stands for a pH of about 5.81, inside the ideal
    band, yet the sketch estimates 5 and keeps the pump off at 18% of
    humidity. *)
Example ph_truncado_muda_decisao :
  (11 # 2 <= ph_linear 1700)%Q /\ (ph_linear 1700 <= 13 # 2)%Q
  /\ to_Q (estimar_ph 1700) = Some (5 # 1)%Q
  /\ logicaDecisao (lerSensores (ambiente LOW LOW 1700 (of_long 18) (of_long 25)))
     = mkDecisao false
         "Bomba DESLIGADA: Umidade baixa, mas pH fora da faixa ideal (entre 5.50-6.50).".
Proof.
  split; [|split; [|split]]; try reflexivity;
    unfold ph_linear, Qle; simpl; lia.
Qed.

(** ** Runs, reports and raw readings *)

Lemma executar_app (xs ys : list Ambiente) (p : Placa) :
  executar (xs ++ ys) p = executar ys (executar xs p).
Proof.
  revert p. induction xs as [|a xs IH]; intros p; cbn [executar app]; [reflexivity|].
  apply IH.
Qed.

Lemma loop_rele (a : Ambiente) (p : Placa) :
  rele (loop a p)
  = if passe_valido a && ligarBomba (logicaDecisao (lerSensores a))
    then HIGH else LOW.
Proof.
  unfold passe_valido. destruct (leitura_valida (lerSensores a)) eqn:Hval.
  - rewrite (loop_valida_rele a p Hval). reflexivity.
  - unfold leitura_valida in Hval. apply negb_false_iff in Hval.
    unfold lerSensores in Hval; cbn [umidade temperatura] in Hval.
    rewrite (loop_falha a p Hval). reflexivity.
Qed.

(** X1. The sketch keeps no memory: after a run the relay is what the last
    pass alone commands, high when that pass is valid and decides to
    irrigate, low otherwise, whatever the earlier passes and the board. *)
Theorem rele_segue_ultimo_passe (ciclos : list Ambiente) (a : Ambiente) (p : Placa) :
  rele (executar (ciclos ++ [a]) p)
  = if passe_valido a && ligarBomba (logicaDecisao (lerSensores a))
    then HIGH else LOW.
Proof. rewrite executar_app. cbn [executar]. apply loop_rele. Qed.

(** X2. After [setup()] and any number of passes the pump runs only if
    there was a last pass, it read the DHT22 successfully, and its readings
    satisfy the irrigation condition; after [setup()] alone it is off. *)
Theorem bomba_ligada_so_por_decisao (ciclos : list Ambiente) (p : Placa) :
  rele (executar ciclos (setup p)) = HIGH ->
  exists (antes : list Ambiente) (a : Ambiente),
    ciclos = (antes ++ [a])%list
    /\ passe_valido a = true
    /\ ((umidade (lerSensores a) < UMIDADE_CRITICA_BAIXA)%flt = true
        \/ ((umidade (lerSensores a) < UMIDADE_MINIMA_PARA_IRRIGAR)%flt = true
            /\ (phEstimado (lerSensores a) >= PH_IDEAL_MINIMO)%flt = true
            /\ (phEstimado (lerSensores a) <= PH_IDEAL_MAXIMO)%flt = true)).
Proof.
  induction ciclos as [|c antes _] using rev_ind.
  - cbn [executar]. discriminate.
  - rewrite executar_app; cbn [executar].
    rewrite loop_rele, ligarBomba_logicaDecisao.
    intros Hon. exists antes, c. split; [reflexivity|].
    destruct (passe_valido c); [|discriminate]. split; [reflexivity|].
    cbn [andb] in Hon.
    destruct (_ || _)%bool eqn:Hd in Hon; [|discriminate].
    rewrite orb_true_iff, !andb_true_iff in Hd. tauto.
Qed.

Lemma passe_valido_false (a : Ambiente) :
  passe_valido a = false ->
  isnan (dht_readHumidity a) || isnan (dht_readTemperature a) = true.
Proof.
  unfold passe_valido, leitura_valida, lerSensores; cbn [umidade temperatura].
  apply negb_false_iff.
Qed.

Lemma pausa_passe (a : Ambiente) :
  pausa a = if passe_valido a then 3000 else 2000.
Proof.
  unfold pausa. destruct (passe_valido a) eqn:Hval.
  - rewrite (loop_valida a placa_inicial Hval).
    cbv [relatorio seq Serial_println Serial_print Serial_print_float
         Serial_emit delay digitalWrite rele serial relogio placa_inicial
         Z.eqb Pos.eqb PINO_RELE_BOMBA].
    reflexivity.
  - rewrite (loop_falha a placa_inicial (passe_valido_false a Hval)). reflexivity.
Qed.

Lemma emitido_falha (a : Ambiente) :
  passe_valido a = false -> emitido a = [aviso_falha].
Proof.
  intros Hval. unfold emitido.
  rewrite (loop_falha a placa_inicial (passe_valido_false a Hval)). reflexivity.
Qed.

Lemma emitido_valido (a : Ambiente) :
  passe_valido a = true ->
  emitido a
  = serial (relatorio (lerSensores a) (logicaDecisao (lerSensores a)) placa_inicial).
Proof.
  intros Hval. unfold emitido. rewrite (loop_valida a placa_inicial Hval).
  cbv [relatorio seq Serial_println Serial_print Serial_print_float
       Serial_emit delay digitalWrite rele serial relogio placa_inicial
       Z.eqb Pos.eqb PINO_RELE_BOMBA].
  reflexivity.
Qed.

Lemma relogio_loop (a : Ambiente) (p : Placa) :
  relogio (loop a p) = relogio p + (if passe_valido a then 3000 else 2000).
Proof. rewrite (loop_frame a p), pausa_passe. reflexivity. Qed.

Lemma validos_falhas (ciclos : list Ambiente) :
  (validos ciclos + falhas ciclos)%nat = List.length ciclos.
Proof.
  unfold validos, falhas. induction ciclos as [|a resto IH]; [reflexivity|].
  cbn [filter]. destruct (passe_valido a); cbn [negb List.length]; lia.
Qed.

(** X3. The time a run spends in [delay]: 3000 ms per valid pass and
    2000 ms per failed pass. *)
Theorem relogio_executar (ciclos : list Ambiente) (p : Placa) :
  relogio (executar ciclos p)
  = relogio p + 3000 * Z.of_nat (validos ciclos) + 2000 * Z.of_nat (falhas ciclos).
Proof.
  revert p. unfold validos, falhas.
  induction ciclos as [|a resto IH]; intros p; cbn [executar filter].
  - cbn. lia.
  - rewrite IH, relogio_loop.
    destruct (passe_valido a); cbn [negb List.length]; lia.
Qed.

Lemma conta_decisoes_app (s t : list Saida) :
  conta_decisoes (s ++ t) = (conta_decisoes s + conta_decisoes t)%nat.
Proof. unfold conta_decisoes. now rewrite filter_app, length_app. Qed.

Lemma conta_decisoes_emitido (a : Ambiente) :
  conta_decisoes (emitido a) = if passe_valido a then 1%nat else 0%nat.
Proof.
  destruct (passe_valido a) eqn:Hval.
  - rewrite (emitido_valido a Hval).
    cbv [relatorio seq Serial_println Serial_print Serial_print_float
         Serial_emit serial rele relogio placa_inicial app].
    unfold conta_decisoes.
    destruct (fosforoPresente (lerSensores a)), (potassioPresente (lerSensores a));
      reflexivity.
  - rewrite (emitido_falha a Hval). reflexivity.
Qed.

(** X4. A run reports one decision line per valid pass and none for a
    failed pass. *)
Theorem decisoes_relatadas (ciclos : list Ambiente) (p : Placa) :
  conta_decisoes (serial (executar ciclos p))
  = (conta_decisoes (serial p) + validos ciclos)%nat.
Proof.
  rewrite executar_serial, conta_decisoes_app. f_equal.
  unfold validos. induction ciclos as [|a resto IH]; [reflexivity|].
  cbn [flat_map filter]. rewrite conta_decisoes_app, conta_decisoes_emitido, IH.
  destruct (passe_valido a); reflexivity.
Qed.

(** Splits the cascade into its branches. *)
Ltac ramos :=
  unfold logicaDecisao;
  repeat match goal with
    | |- context [if (?a || ?b)%bool then _ else _] =>
        destruct a eqn:?; cbn [orb]; cbv iota
    | |- context [if (?a && ?b)%bool then _ else _] =>
        destruct a eqn:?; cbn [andb]; cbv iota
    | |- context [if ?c then _ else _] => destruct c eqn:?; cbv iota
    end;
  cbn [ligarBomba motivoDecisao].

(** X6. The reason never contradicts the command: the pump is commanded on
    exactly when the reason starts with [EMERGENCIA] or [Bomba LIGADA]. *)
Theorem motivo_coerente_com_comando (l : Leituras) :
  ligarBomba (logicaDecisao l)
  = motivo_indica_ligada (motivoDecisao (logicaDecisao l)).
Proof. ramos; reflexivity. Qed.

(** X7. The reason [motivoDecisao] is initialised with (line 49) is never
    the reason of a decision: every branch of the cascade overwrites it. *)
Theorem motivo_inicial_nunca_relatado (l : Leituras) :
  motivoDecisao (logicaDecisao l) <> "Condicoes normais, bomba desligada.".
Proof. ramos; vm_compute; discriminate. Qed.

Lemma motivo_nao_e_estado (l : Leituras) :
  motivoDecisao (logicaDecisao l) <> "LIGADA"
  /\ motivoDecisao (logicaDecisao l) <> "DESLIGADA".
Proof. ramos; split; vm_compute; discriminate. Qed.

(** X8. The emergency reason is given exactly when the humidity is below
    15.0. *)
Theorem motivo_emergencia (l : Leituras) :
  motivoDecisao (logicaDecisao l) = "EMERGENCIA: Umidade critica baixa (<15.00%)."
  <-> (umidade l < UMIDADE_CRITICA_BAIXA)%flt = true.
Proof.
  destruct (umidade l < UMIDADE_CRITICA_BAIXA)%flt eqn:Hh.
  - split; [reflexivity|intros _]. unfold logicaDecisao. rewrite Hh. reflexivity.
  - split; [|discriminate]. unfold logicaDecisao. rewrite Hh.
    ramos; vm_compute; discriminate.
Qed.

(** X9. With humidity in [15.0, 20.0) and pH in [5.5, 6.5] the nutrient
    buttons choose the reason only: normal irrigation with both, reduced
    with exactly one, minimal with none. *)
Theorem motivo_por_nutrientes (fos pot : bool) (ph h t : float) :
  (h >= UMIDADE_CRITICA_BAIXA)%flt = true ->
  (h < UMIDADE_MINIMA_PARA_IRRIGAR)%flt = true ->
  (ph >= PH_IDEAL_MINIMO)%flt = true ->
  (ph <= PH_IDEAL_MAXIMO)%flt = true ->
  motivoDecisao (logicaDecisao (mkLeituras fos pot ph h t))
  = if fos && pot then
      "Bomba LIGADA: Umidade baixa, pH ideal, P e K presentes (irrig. normal)."
    else if xorb fos pot then
      "Bomba LIGADA: Umidade baixa, pH ideal, P ou K presente (irrig. reduzida)."
    else
      "Bomba LIGADA: Umidade baixa, pH ideal, P e K ausentes (irrig. minima).".
Proof.
  intros Hh1 Hh2 Hp1 Hp2.
  assert (H15 : (h < UMIDADE_CRITICA_BAIXA)%flt = false) by float_order.
  assert (H45 : (ph < PH_CRITICO_MINIMO)%flt = false) by float_order.
  assert (H75 : (ph > PH_CRITICO_MAXIMO)%flt = false) by float_order.
  unfold logicaDecisao;
    cbn [umidade temperatura phEstimado fosforoPresente potassioPresente].
  rewrite H15, H45, H75, Hh2, Hp1, Hp2. cbn [orb andb].
  destruct fos, pot; reflexivity.
Qed.

(** X5. On a valid pass the pump state written to the serial monitor is
    the level driven on the relay: [LIGADA] is printed exactly when the
    relay is high, [DESLIGADA] exactly when it is low. *)
Theorem estado_relatado_segue_rele (a : Ambiente) (p : Placa) :
  passe_valido a = true ->
  (In (println "LIGADA") (emitido a) <-> rele (loop a p) = HIGH)
  /\ (In (println "DESLIGADA") (emitido a) <-> rele (loop a p) = LOW).
Proof.
  intros Hval. rewrite loop_rele, Hval, (emitido_valido a Hval). cbn [andb].
  destruct (motivo_nao_e_estado (lerSensores a)) as [Hl Hd].
  cbv [relatorio seq Serial_println Serial_print Serial_print_float
       Serial_emit serial rele relogio placa_inicial app].
  set (d := logicaDecisao (lerSensores a)) in *.
  destruct (ligarBomba d); cbn [In]; split; split; intros H;
    try reflexivity; try discriminate;
    repeat (destruct H as [H | H]; [try discriminate; try congruence|]);
    try contradiction; auto 20.
Qed.

(** X10. The level driven on the relay depends on the raw light reading,
    the humidity and on whether the temperature is NaN, and on nothing
    else: not on the nutrient buttons, the temperature value or the board. *)
Theorem rele_independe_de_botoes_e_temperatura (a1 a2 : Ambiente) (p q : Placa) :
  analogRead a1 PINO_LDR_PH = analogRead a2 PINO_LDR_PH ->
  dht_readHumidity a1 = dht_readHumidity a2 ->
  isnan (dht_readTemperature a1) = isnan (dht_readTemperature a2) ->
  rele (loop a1 p) = rele (loop a2 q).
Proof.
  intros Hraw Hh Ht. rewrite !loop_rele, !ligarBomba_logicaDecisao.
  unfold passe_valido, leitura_valida, lerSensores;
    cbn [umidade temperatura phEstimado].
  rewrite Hraw, Hh, Ht. reflexivity.
Qed.

Lemma estimar_ph_valid (raw : Z) :
  0 <= raw <= 4095 -> valid (estimar_ph raw) = true.
Proof.
  intros Hraw. unfold estimar_ph.
  pose proof (map_valorLDR_range raw Hraw) as Hk.
  set (k := Arduino.map raw 0 4095 0 14) in *. clearbody k.
  casos_0_14 k; reflexivity.
Qed.

(** X11. The estimated pH does not decrease when the raw reading grows. *)
Theorem estimar_ph_monotona (raw1 raw2 : Z) :
  0 <= raw1 -> raw1 <= raw2 -> raw2 <= 4095 ->
  (estimar_ph raw1 <= estimar_ph raw2)%flt = true.
Proof.
  intros H0 H12 H2.
  rewrite (le_Qle (estimar_ph raw1) (estimar_ph raw2)
             (inject_Z (raw1 * 14 / 4095)) (inject_Z (raw2 * 14 / 4095)));
    try (apply estimar_ph_valid; lia); try (apply estimar_ph_piso; lia).
  rewrite <- Zle_Qle. apply Z.div_le_mono; lia.
Qed.

(** Evaluates the boolean on the left of an equivalence. *)
Ltac avalia_esquerda :=
  match goal with
  | |- ?b = true <-> _ =>
      let v := eval vm_compute in b in change b with v
  end.

Lemma quociente_valorLDR (raw : Z) :
  0 <= raw <= 4095 ->
  exists k r, Arduino.map raw 0 4095 0 14 = k
              /\ raw * 14 = 4095 * k + r /\ 0 <= r < 4095 /\ 0 <= k <= 14.
Proof.
  intros Hraw. exists (raw * 14 / 4095), ((raw * 14) mod 4095).
  split; [apply map_valorLDR; exact Hraw|].
  split; [apply Z.div_mod; lia|].
  split; [apply Z.mod_pos_bound; lia|].
  rewrite <- (map_valorLDR raw Hraw). apply map_valorLDR_range; exact Hraw.
Qed.

(** The raw readings whose estimated pH is in the ideal band. *)
Lemma janela_ph_ideal (raw : Z) :
  0 <= raw <= 4095 ->
  ((estimar_ph raw >= PH_IDEAL_MINIMO)%flt
   && (estimar_ph raw <= PH_IDEAL_MAXIMO)%flt = true
   <-> 1755 <= raw <= 2047).
Proof.
  intros Hraw. unfold estimar_ph.
  destruct (quociente_valorLDR raw Hraw) as (k & r & -> & Hdiv & Hr & Hk).
  casos_0_14 k; avalia_esquerda;
    (split; [intros Hb; try discriminate; lia | intros Hw; try reflexivity; lia]).
Qed.

(** X12. The estimated pH is critical (below 4.5 or above 7.5) exactly for
    the raw readings up to 1462 and from 2340 on. *)
Theorem janela_ph_critico (raw : Z) :
  0 <= raw <= 4095 ->
  ((estimar_ph raw < PH_CRITICO_MINIMO)%flt
   || (estimar_ph raw > PH_CRITICO_MAXIMO)%flt = true
   <-> raw <= 1462 \/ 2340 <= raw).
Proof.
  intros Hraw. unfold estimar_ph.
  destruct (quociente_valorLDR raw Hraw) as (k & r & -> & Hdiv & Hr & Hk).
  casos_0_14 k; avalia_esquerda;
    (split; [intros Hb; try discriminate; lia | intros Hw; try reflexivity; lia]).
Qed.

(** X13. On a valid pass the relay is driven high exactly when the
    humidity is below 15.0, or below 20.0 with the raw light reading between
    1755 and 2047. *)
Theorem rele_pelas_entradas (a : Ambiente) (p : Placa) :
  passe_valido a = true ->
  0 <= analogRead a PINO_LDR_PH <= 4095 ->
  (rele (loop a p) = HIGH
   <-> (dht_readHumidity a < UMIDADE_CRITICA_BAIXA)%flt = true
       \/ ((dht_readHumidity a < UMIDADE_MINIMA_PARA_IRRIGAR)%flt = true
           /\ 1755 <= analogRead a PINO_LDR_PH <= 2047)).
Proof.
  intros Hval Hraw. rewrite loop_rele, Hval, ligarBomba_logicaDecisao.
  cbn [andb]. unfold lerSensores; cbn [umidade phEstimado].
  rewrite <- (janela_ph_ideal _ Hraw).
  destruct (dht_readHumidity a < UMIDADE_CRITICA_BAIXA)%flt,
           (dht_readHumidity a < UMIDADE_MINIMA_PARA_IRRIGAR)%flt;
    cbn [orb andb];
    destruct ((estimar_ph (analogRead a PINO_LDR_PH) >= PH_IDEAL_MINIMO)%flt
              && (estimar_ph (analogRead a PINO_LDR_PH) <= PH_IDEAL_MAXIMO)%flt);
    intuition (try discriminate; try reflexivity).
Qed.

Lemma bomba_ligada_so_por_decisao_witness :
  exists (antes : list Ambiente) (a : Ambiente),
    [ambiente LOW LOW 2000 (of_long 10) (of_long 25)] = (antes ++ [a])%list
    /\ passe_valido a = true
    /\ ((umidade (lerSensores a) < UMIDADE_CRITICA_BAIXA)%flt = true
        \/ ((umidade (lerSensores a) < UMIDADE_MINIMA_PARA_IRRIGAR)%flt = true
            /\ (phEstimado (lerSensores a) >= PH_IDEAL_MINIMO)%flt = true
            /\ (phEstimado (lerSensores a) <= PH_IDEAL_MAXIMO)%flt = true)).
Proof.
  apply (bomba_ligada_so_por_decisao
           [ambiente LOW LOW 2000 (of_long 10) (of_long 25)] placa_inicial).
  reflexivity.
Defined.

Lemma motivo_por_nutrientes_witness :
  motivoDecisao
    (logicaDecisao (mkLeituras true false (of_long 6) (of_long 18) (of_long 25)))
  = "Bomba LIGADA: Umidade baixa, pH ideal, P ou K presente (irrig. reduzida).".
Proof.
  apply (motivo_por_nutrientes true false (of_long 6) (of_long 18) (of_long 25));
    reflexivity.
Defined.

Lemma estado_relatado_segue_rele_witness :
  (In (println "LIGADA") (emitido (ambiente HIGH LOW 2000 (of_long 18) (of_long 25)))
   <-> rele (loop (ambiente HIGH LOW 2000 (of_long 18) (of_long 25)) placa_inicial)
       = HIGH)
  /\ (In (println "DESLIGADA")
        (emitido (ambiente HIGH LOW 2000 (of_long 18) (of_long 25)))
      <-> rele (loop (ambiente HIGH LOW 2000 (of_long 18) (of_long 25)) placa_inicial)
          = LOW).
Proof.
  apply (estado_relatado_segue_rele
           (ambiente HIGH LOW 2000 (of_long 18) (of_long 25)) placa_inicial).
  reflexivity.
Defined.

Lemma rele_independe_de_botoes_e_temperatura_witness :
  rele (loop (ambiente LOW LOW 2000 (of_long 18) (of_long 10)) placa_inicial)
  = rele (loop (ambiente HIGH HIGH 2000 (of_long 18) (of_long 35))
            (mkPlaca HIGH [] 7000)).
Proof.
  apply (rele_independe_de_botoes_e_temperatura
           (ambiente LOW LOW 2000 (of_long 18) (of_long 10))
           (ambiente HIGH HIGH 2000 (of_long 18) (of_long 35))
           placa_inicial (mkPlaca HIGH [] 7000));
    reflexivity.
Defined.

Lemma estimar_ph_monotona_witness :
  (estimar_ph 1000 <= estimar_ph 3000)%flt = true.
Proof. apply (estimar_ph_monotona 1000 3000); lia. Defined.

Lemma janela_ph_critico_witness :
  (estimar_ph 2340 < PH_CRITICO_MINIMO)%flt
  || (estimar_ph 2340 > PH_CRITICO_MAXIMO)%flt = true
  <-> 2340 <= 1462 \/ 2340 <= 2340.
Proof. apply (janela_ph_critico 2340); lia. Defined.

Lemma rele_pelas_entradas_witness :
  rele (loop (ambiente HIGH HIGH 1755 (of_long 18) (of_long 25)) placa_inicial) = HIGH
  <-> (of_long 18 < UMIDADE_CRITICA_BAIXA)%flt = true
      \/ ((of_long 18 < UMIDADE_MINIMA_PARA_IRRIGAR)%flt = true
          /\ 1755 <= 1755 <= 2047).
Proof.
  apply (rele_pelas_entradas
           (ambiente HIGH HIGH 1755 (of_long 18) (of_long 25)) placa_inicial).
  - reflexivity.
  - cbn. lia.
Defined.

Lemma ligarBomba_valores_witness :
  ligarBomba
    (logicaDecisao (mkLeituras false false (of_long 6) (of_long 18) (of_long 25)))
  = true
  <-> (18 # 1 < 15 \/ (18 # 1 < 20 /\ 11 # 2 <= 6 # 1 /\ 6 # 1 <= 13 # 2))%Q.
Proof.
  apply (ligarBomba_valores
           (mkLeituras false false (of_long 6) (of_long 18) (of_long 25))
           (18 # 1) (6 # 1));
    reflexivity.
Defined.
